(** * python-arango: the ArangoDB client wrapper (arango/arango.py)

    A shallow embedding of the class [ArangoDB]: its constructor, its two
    properties ([version], [databases]), the database cache with its
    reconciliation against the server, and the three database operations
    ([db], [create_database], [delete_database]).

    The methods are written in a state-and-exception monad.  The state is
    the object [self] together with an environment holding the remote
    server, the log of the requests sent so far and the allocator of
    object identities.  An exception leaves the state as it was when it
    was raised, as in Python.

    [__getattr__] and [__getitem__] forward to the default database, whose
    class lives in arango/database.py; they are not part of this file. *)

From Stdlib Require Import ZArith String.
From stdpp Require Import base option list gmap strings fin_maps fin_sets.

Local Open Scope string_scope.
Local Open Scope Z_scope.
Local Open Scope list_scope.

(** ** Python values *)

(** The values that travel in a request body.  [PyNone] is also the
    default of the keyword argument [users]. *)
#[local] Unset Elimination Schemes.
Inductive PyVal : Type :=
| PyNone
| PyBool (b : bool)
| PyInt (z : Z)
| PyStr (s : string)
| PyList (l : list PyVal)
| PyDict (d : list (string * PyVal)).
#[local] Set Elimination Schemes.

(** Truth value of an object, as tested by [if users]. *)
Definition truthy (v : PyVal) : bool :=
  match v with
  | PyNone => false
  | PyBool b => b
  | PyInt z => negb (z =? 0)
  | PyStr s => negb (String.eqb s "")
  | PyList l => match l with [] => false | _ => true end
  | PyDict d => match d with [] => false | _ => true end
  end.

(** ** The collaborators: Connection, Response, Database *)

(** Modelled from the spec: the class [Connection] of arango/connection.py.
    It is built from protocol, host, port, credentials and an optional
    database name, and keeps no state between requests.  [conn_oid] is the
    identity of the Python object. *)
Record Connection : Type := mkConnection {
  conn_oid : nat;
  conn_protocol : string;
  conn_host : string;
  conn_port : Z;
  conn_username : option string;
  conn_password : option string;
  conn_db_name : option string
}.

(** Modelled from the spec: the class [Database] of arango/database.py,
    constructed from a name and a connection.  [db_oid] is the identity of
    the Python object: two handles are the same instance exactly when they
    carry the same [db_oid]. *)
Record Database : Type := mkDatabase {
  db_oid : nat;
  name : string;
  client : Connection
}.

Inductive Verb : Type := GET | POST | DELETE | HEAD.

(** A request as it leaves a connection: the verb, the connection it was
    issued on, the path, and the body ([data]) when there is one. *)
Record Request : Type := mkRequest {
  req_verb : Verb;
  req_conn : Connection;
  req_path : string;
  req_data : option (gmap string PyVal)
}.

(** Modelled from the spec: the parsed JSON body of a response.  The two
    members the client reads are [obj["version"]] and [obj["result"]]. *)
Record Obj : Type := mkObj {
  obj_version : string;
  obj_result : list string
}.

(** Modelled from the spec: the response object returned by the verbs of
    [Connection]. *)
Record Response : Type := mkResponse {
  status_code : Z;
  reason : string;
  obj : Obj
}.

(** ** Exceptions (arango/exceptions.py) *)

(** [ArangoConnectionError] is raised with a message formatted from the
    host, the status and the reason; the three are kept apart here.  The
    four response errors are raised with the response, the last with the
    name that was looked up. *)
Inductive Error : Type :=
| ArangoConnectionError (host : string) (status : Z) (why : string)
| ArangoVersionError (res : Response)
| ArangoDatabaseListError (res : Response)
| ArangoDatabaseCreateError (res : Response)
| ArangoDatabaseDeleteError (res : Response)
| ArangoDatabaseNotFoundError (db_name : string).

(** ** The object *)

Record ArangoDB : Type := mkArangoDB {
  _protocol : string;
  _host : string;
  _port : Z;
  _username : option string;
  _password : option string;
  _conn : Connection;
  _database_cache : gmap string Database;
  _default_database : Database
}.

(** Assignment to the attribute [_database_cache]; the other attributes
    are never assigned after construction. *)
Definition with_cache (self : ArangoDB) (cache : gmap string Database) : ArangoDB :=
  mkArangoDB (_protocol self) (_host self) (_port self) (_username self)
    (_password self) (_conn self) cache (_default_database self).

(** The value returned by the property [databases]: a dictionary with the
    two keys ["user"] and ["all"]. *)
Record DatabaseNames : Type := mkDatabaseNames {
  user : list string;
  all : list string
}.

(** ** The remote server *)

(** Whatever answers the requests: a state and a transition function.  No
    assumption is made on how it answers. *)
Class HttpServer (Server : Type) : Type :=
  serve : Server → Request → Response * Server.

(** ** The monad *)

Definition M (St A : Type) : Type := St → (Error + A) * St.

Definition ret {St A} (a : A) : M St A := λ s, (inr a, s).

Definition raise {St A} (e : Error) : M St A := λ s, (inl e, s).

Definition bind {St A B} (m : M St A) (k : A → M St B) : M St B :=
  λ s, match m s with
       | (inl e, s') => (inl e, s')
       | (inr a, s') => k a s'
       end.

Notation "'let*' x ':=' m 'in' k" := (bind m (λ x, k))
  (at level 10, x name, m at level 100, k at level 200).

(** A [for] loop over a sequence. *)
Fixpoint for_each {St A} (l : list A) (body : A → M St unit) : M St unit :=
  match l with
  | [] => ret tt
  | x :: l' => let* _ := body x in for_each l' body
  end.

Section Client.
Context {Server : Type} `{!HttpServer Server}.

(** The environment of a run: the server, the requests sent so far in
    the order they were sent, and the next free object identity. *)
Record Env : Type := mkEnv {
  server : Server;
  trace : list Request;
  next_oid : nat
}.

(** The state of a method call: [self] and the environment. *)
Definition St : Type := ArangoDB * Env.

(** Construction of a Python object: a new identity. *)
Definition alloc : M Env nat :=
  λ e, (inr (next_oid e),
        {| server := server e; trace := trace e; next_oid := S (next_oid e) |}).

Definition Connection_new (protocol host : string) (port : Z)
    (username password db_name : option string) : M Env Connection :=
  let* o := alloc in
  ret (mkConnection o protocol host port username password db_name).

Definition Database_new (name : string) (client : Connection) : M Env Database :=
  let* o := alloc in
  ret (mkDatabase o name client).

(** Modelled from the spec: the verbs of [Connection].  One request, one
    response, no retry. *)
Definition send (conn : Connection) (verb : Verb) (path : string)
    (data : option (gmap string PyVal)) : M Env Response :=
  λ e, let req := mkRequest verb conn path data in
       let '(res, srv) := serve (server e) req in
       (inr res, {| server := srv; trace := trace e ++ [req]; next_oid := next_oid e |}).

Definition Connection_head (conn : Connection) (path : string) : M Env Response :=
  send conn HEAD path None.
Definition Connection_get (conn : Connection) (path : string) : M Env Response :=
  send conn GET path None.
Definition Connection_post (conn : Connection) (path : string)
    (data : gmap string PyVal) : M Env Response :=
  send conn POST path (Some data).
Definition Connection_delete (conn : Connection) (path : string) : M Env Response :=
  send conn DELETE path None.

(** Running an environment action inside a method. *)
Definition env {A} (m : M Env A) : M St A :=
  λ '(self, e), let '(r, e') := m e in (r, (self, e')).

Definition get_self : M St ArangoDB := λ '(self, e), (inr self, (self, e)).

(** [del self._database_cache[db_name]].  The statement is only run on
    names taken from the cache, so the key is there and no [KeyError]
    arises. *)
Definition cache_del (db_name : string) : M St unit :=
  λ '(self, e),
    (inr tt, (with_cache self (delete db_name (_database_cache self)), e)).

(** [self._database_cache[db_name] = d] *)
Definition cache_set (db_name : string) (d : Database) : M St unit :=
  λ '(self, e),
    (inr tt, (with_cache self (<[db_name := d]> (_database_cache self)), e)).

(** *** [ArangoDB.__init__] *)
Definition __init__ (protocol host : string) (port : Z)
    (username password : option string) : M Env ArangoDB :=
  let* conn := Connection_new protocol host port username password None in
  let* res := Connection_head conn "/_api/version" in
  if decide (status_code res ≠ 200) then
    raise (ArangoConnectionError host (status_code res) (reason res))
  else
    let* d := Database_new "_system" conn in
    ret (mkArangoDB protocol host port username password conn ∅ d).

(** *** [version] *)
Definition version : M St string :=
  let* self := get_self in
  let* res := env (Connection_get (_conn self) "/_api/version") in
  if decide (status_code res ≠ 200) then raise (ArangoVersionError res)
  else ret (obj_version (obj res)).

(** *** [databases] *)
Definition databases : M St DatabaseNames :=
  let* self := get_self in
  let* res := env (Connection_get (_conn self) "/_api/database/user") in
  if decide (status_code res ≠ 200) then raise (ArangoDatabaseListError res)
  else
    let user_databases := obj_result (obj res) in
    let* self := get_self in
    let* res := env (Connection_get (_conn self) "/_api/database") in
    if decide (status_code res ≠ 200) then raise (ArangoDatabaseListError res)
    else
      let all_databases := obj_result (obj res) in
      ret (mkDatabaseNames user_databases all_databases).

(** *** [_invalidate_database_cache] *)

(** The body of the second loop: a connection scoped to [db_name], then
    the handle, then the store into the cache. *)
Definition cache_fill (db_name : string) : M St unit :=
  let* self := get_self in
  let* c := env (Connection_new (_protocol self) (_host self) (_port self)
                   (_username self) (_password self) (Some db_name)) in
  let* d := env (Database_new db_name c) in
  cache_set db_name d.

(** Both loops run over a set difference.  Python leaves the iteration
    order of a set open; [elements] fixes one, and no statement below
    depends on which. *)
Definition _invalidate_database_cache : M St unit :=
  let* dbs := databases in
  let real_dbs : gset string := list_to_set (all dbs) in
  let* self := get_self in
  let cached_dbs : gset string := dom (_database_cache self) in
  let* _ := for_each (elements (cached_dbs ∖ real_dbs)) cache_del in
  for_each (elements (real_dbs ∖ cached_dbs)) cache_fill.

(** *** [db] *)
Definition db (name : string) : M St Database :=
  let* self := get_self in
  match _database_cache self !! name with
  | Some d => ret d
  | None =>
      let* _ := _invalidate_database_cache in
      let* self := get_self in
      match _database_cache self !! name with
      | None => raise (ArangoDatabaseNotFoundError name)
      | Some d => ret d
      end
  end.

(** *** [create_database] *)

(** [{"name": name, "users": users} if users else {"name": name}] *)
Definition create_data (name : string) (users : PyVal) : gmap string PyVal :=
  if truthy users then <["users" := users]> {["name" := PyStr name]}
  else {["name" := PyStr name]}.

Definition create_database (name : string) (users : PyVal) : M St unit :=
  let data := create_data name users in
  let* self := get_self in
  let* res := env (Connection_post (_conn self) "/_api/database" data) in
  if decide (status_code res ≠ 201) then raise (ArangoDatabaseCreateError res)
  else _invalidate_database_cache.

(** *** [delete_database] *)
Definition delete_database (name : string) : M St unit :=
  let* self := get_self in
  let* res := env (Connection_delete (_conn self) ("/_api/database/" +:+ name)) in
  if decide (status_code res ≠ 200) then raise (ArangoDatabaseDeleteError res)
  else _invalidate_database_cache.

End Client.

Arguments Env : clear implicits.
Arguments St : clear implicits.

(** ** Vocabulary of the statements *)

(** The handle the rebuild constructs for [db_name] when the next free
    identity is [o]: the connection takes [o], the handle [S o]. *)
Definition fresh_handle (self : ArangoDB) (o : nat) (db_name : string) : Database :=
  mkDatabase (S o) db_name
    (mkConnection o (_protocol self) (_host self) (_port self)
       (_username self) (_password self) (Some db_name)).

(** The cache after the first loop of the rebuild has run over [l]. *)
Definition evict_all (l : list string) (cache : gmap string Database) :
    gmap string Database :=
  foldl (λ m n, delete n m) cache l.

(** The cache after the second loop of the rebuild has run over [l],
    starting at identity [o]. *)
Fixpoint fill_all (self : ArangoDB) (o : nat) (l : list string)
    (cache : gmap string Database) : gmap string Database :=
  match l with
  | [] => cache
  | n :: l' => fill_all self (S (S o)) l' (<[n := fresh_handle self o n]> cache)
  end.

(** The object after a rebuild against the listing [live], the next free
    identity being [o]. *)
Definition rebuild (self : ArangoDB) (o : nat) (live : list string) : ArangoDB :=
  let real_dbs : gset string := list_to_set live in
  let cached_dbs : gset string := dom (_database_cache self) in
  with_cache self
    (fill_all self o (elements (real_dbs ∖ cached_dbs))
       (evict_all (elements (cached_dbs ∖ real_dbs)) (_database_cache self))).

(** Well-formedness of the cache: every key is the name of its handle, and
    the handle's connection is scoped to that name and carries the
    client's protocol, host, port and credentials. *)
Definition cache_wf (self : ArangoDB) : Prop :=
  ∀ k h, _database_cache self !! k = Some h →
    name h = k ∧
    conn_db_name (client h) = Some k ∧
    conn_protocol (client h) = _protocol self ∧
    conn_host (client h) = _host self ∧
    conn_port (client h) = _port self ∧
    conn_username (client h) = _username self ∧
    conn_password (client h) = _password self.

(** The attributes other than the cache. *)
Definition same_settings (a b : ArangoDB) : Prop :=
  _protocol a = _protocol b ∧ _host a = _host b ∧ _port a = _port b ∧
  _username a = _username b ∧ _password a = _password b ∧
  _conn a = _conn b ∧ _default_database a = _default_database b.

(** The requests the client sends. *)
Definition version_head_request (conn : Connection) : Request :=
  mkRequest HEAD conn "/_api/version" None.
Definition version_request (self : ArangoDB) : Request :=
  mkRequest GET (_conn self) "/_api/version" None.
Definition create_request (self : ArangoDB) (name : string) (users : PyVal) : Request :=
  mkRequest POST (_conn self) "/_api/database"
    (Some (create_data name users)).
Definition delete_request (self : ArangoDB) (name : string) : Request :=
  mkRequest DELETE (_conn self) ("/_api/database/" +:+ name) None.

(** The two requests of [databases]. *)
Definition list_user_request (self : ArangoDB) : Request :=
  mkRequest GET (_conn self) "/_api/database/user" None.
Definition list_all_request (self : ArangoDB) : Request :=
  mkRequest GET (_conn self) "/_api/database" None.

(** What the server answers to [req] in environment [e], and the
    environment once the exchange has taken place. *)
Definition answer_to {Server} `{!HttpServer Server} (e : Env Server) (req : Request) : Response :=
  (serve (server e) req).1.
Definition after_send {Server} `{!HttpServer Server} (e : Env Server) (req : Request) : Env Server :=
  mkEnv (serve (server e) req).2 (trace e ++ [req]) (next_oid e).

(** ** Sequences of calls *)

(** The public operations of a constructed client. *)
Inductive Call : Type :=
| CallVersion
| CallDatabases
| CallDb (name : string)
| CallCreateDatabase (name : string) (users : PyVal)
| CallDeleteDatabase (name : string).

(** The result of a call, with the types of the results forgotten: the
    exception, if one was raised. *)
Definition raised {A St} (r : (Error + A) * St) : option Error :=
  match r.1 with inl err => Some err | inr _ => None end.

(** The state a caller finds after a call, whether it returned or raised,
    and the exception if there was one. *)
Definition call {Server} `{!HttpServer Server} (k : Call) (st : St Server) :
    option Error * St Server :=
  match k with
  | CallVersion => (raised (version st), (version st).2)
  | CallDatabases => (raised (databases st), (databases st).2)
  | CallDb n => (raised (db n st), (db n st).2)
  | CallCreateDatabase n users =>
      (raised (create_database n users st), (create_database n users st).2)
  | CallDeleteDatabase n =>
      (raised (delete_database n st), (delete_database n st).2)
  end.

(** A caller that makes the calls [ks] one after the other, going on after
    an exception. *)
Definition calls {Server} `{!HttpServer Server} (ks : list Call) (st : St Server) :
    St Server :=
  foldl (λ st k, (call k st).2) st ks.


(** What a call can do to the client: nothing, or one rebuild against some
    listing.  [o] and [o'] are the next free identities before and after. *)
Definition rebuilt_or_same (c : ArangoDB) (o : nat) (c' : ArangoDB) (o' : nat) : Prop :=
  (c' = c ∧ o' = o) ∨
  ∃ live, c' = rebuild c o live ∧
          o' = (o + 2 * length (elements
                  ((list_to_set live : gset string) ∖ dom (_database_cache c))))%nat.

(** Every object the client holds was constructed before identity [o]. *)
Definition oids_below (o : nat) (self : ArangoDB) : Prop :=
  (conn_oid (_conn self) < o)%nat ∧
  (db_oid (_default_database self) < o)%nat ∧
  (conn_oid (client (_default_database self)) < o)%nat ∧
  ∀ k h, _database_cache self !! k = Some h →
    (db_oid h < o)%nat ∧ (conn_oid (client h) < o)%nat.

(** No two cached handles are the same object or use the same connection,
    no cached handle is the default handle, and none uses the client's own
    connection. *)
Definition own_connections (self : ArangoDB) : Prop :=
  (∀ k1 k2 h1 h2,
      _database_cache self !! k1 = Some h1 →
      _database_cache self !! k2 = Some h2 →
      db_oid h1 = db_oid h2 ∨ conn_oid (client h1) = conn_oid (client h2) →
      k1 = k2) ∧
  (∀ k h, _database_cache self !! k = Some h →
      db_oid h ≠ db_oid (_default_database self) ∧
      conn_oid (client h) ≠ conn_oid (_conn self) ∧
      db_oid h ≠ conn_oid (client h) ∧
      (∀ k' h', _database_cache self !! k' = Some h' →
                db_oid h ≠ conn_oid (client h'))).

(** ** A simulated server *)

(** A small ArangoDB stand-in used to run the client on concrete inputs:
    it keeps the list of database names and a schedule of outages.  Each
    request consumes the head of the schedule; under an outage the server
    answers 503 and changes nothing. *)
Module Sim.

Record t : Type := mk {
  dbs : list string;
  outages : list bool
}.

Definition no_obj : Obj := mkObj "" [].

Definition ok (o : Obj) : Response := mkResponse 200 "OK" o.

Fixpoint strip_prefix (p s : string) : option string :=
  match p, s with
  | EmptyString, _ => Some s
  | String a p', String b s' =>
      if Ascii.eqb a b then strip_prefix p' s' else None
  | String _ _, EmptyString => None
  end.

Definition member (n : string) (l : list string) : bool :=
  existsb (String.eqb n) l.

Definition remove (n : string) (l : list string) : list string :=
  List.filter (λ m, negb (String.eqb n m)) l.

Definition answer (names : list string) (req : Request) : Response * list string :=
  match req_verb req with
  | HEAD =>
      if String.eqb (req_path req) "/_api/version"
      then (ok no_obj, names)
      else (mkResponse 404 "Not Found" no_obj, names)
  | GET =>
      if String.eqb (req_path req) "/_api/version"
      then (ok (mkObj "2.5.0" []), names)
      else if String.eqb (req_path req) "/_api/database/user"
      then (ok (mkObj "" names), names)
      else if String.eqb (req_path req) "/_api/database"
      then (ok (mkObj "" names), names)
      else (mkResponse 404 "Not Found" no_obj, names)
  | POST =>
      if String.eqb (req_path req) "/_api/database"
      then match req_data req ≫= (λ d, d !! "name") with
           | Some (PyStr n) =>
               if member n names
               then (mkResponse 409 "Conflict" no_obj, names)
               else (mkResponse 201 "Created" no_obj, names ++ [n])
           | _ => (mkResponse 400 "Bad Request" no_obj, names)
           end
      else (mkResponse 404 "Not Found" no_obj, names)
  | DELETE =>
      match strip_prefix "/_api/database/" (req_path req) with
      | Some n =>
          if member n names
          then (ok no_obj, remove n names)
          else (mkResponse 404 "Not Found" no_obj, names)
      | None => (mkResponse 404 "Not Found" no_obj, names)
      end
  end.

#[global] Instance sim_server : HttpServer t := λ s req,
  match outages s with
  | true :: sched =>
      (mkResponse 503 "Service Unavailable" no_obj, mk (dbs s) sched)
  | sched =>
      let '(res, names) := answer (dbs s) req in
      (res, mk names (tail sched))
  end.

(** A fresh run against a server holding [names], with the outage
    schedule [sched]. *)
Definition start (names : list string) (sched : list bool) : Env t :=
  mkEnv (mk names sched) [] 0%nat.

End Sim.

(** ** Concrete runs *)

(** The states the examples below start from and pass through, all on the
    simulated server.  [after m st] is the state a call leaves behind,
    whether it returned or raised. *)
Module Demo.

Definition after {A} (m : M (St Sim.t) A) (st : St Sim.t) : St Sim.t := (m st).2.

Definition conn0 : Connection :=
  mkConnection 0 "http" "localhost" 8529 None None None.

(** The client and the environment right after
    [ArangoDB()] has been constructed against a server holding [names],
    with [sched] the outages still to come. *)
Definition client0 : ArangoDB :=
  mkArangoDB "http" "localhost" 8529 None None conn0 ∅
    (mkDatabase 1 "_system" conn0).

Definition env0 (names : list string) (sched : list bool) : Env Sim.t :=
  mkEnv (Sim.mk names sched) [version_head_request conn0] 2%nat.

Definition start (names : list string) (sched : list bool) : St Sim.t :=
  (client0, env0 names sched).

(** A client whose cache holds a handle for ["x"] although the server
    has dropped it: [db("x")] filled the cache, then
    [delete_database("x")] was answered 200 but its rebuild met an
    outage and raised. *)
Definition stale : St Sim.t :=
  after (delete_database "x")
    (after (db "x")
       (start ["_system"; "x"] [false; false; false; true])).

(** A client whose cache holds ["_system"] and ["old"] while the server
    holds ["_system"] and ["new"]: the rebuilds of the creation and of
    the deletion both met an outage. *)
Definition drifted : St Sim.t :=
  after (delete_database "old")
    (after (create_database "new" PyNone)
       (after (db "old")
          (start ["_system"; "old"] [false; false; false; true; false; true]))).

End Demo.

(** The states and the calls of the examples on sequences of calls. *)
Module Story.

(** A client that has looked up ["x"] on a server holding ["_system"] and
    ["x"]: both names are cached. *)
Definition looked_up : St Sim.t :=
  Demo.after (db "x") (Demo.start ["_system"; "x"] []).

(** Three calls on a fresh client: look up ["foo"], create ["bar"], delete
    ["foo"]. *)
Definition busy : list Call :=
  [CallDb "foo"; CallCreateDatabase "bar" PyNone; CallDeleteDatabase "foo"].

End Story.

(** * Properties *)

Section Properties.
Context {Server : Type} `{!HttpServer Server}.
Implicit Types (c self : ArangoDB) (e : Env Server) (n : string).

(** ** The monad and the environment *)

Lemma send_run conn verb path data e :
  send conn verb path data e =
    (inr (answer_to e (mkRequest verb conn path data)),
     after_send e (mkRequest verb conn path data)).
Proof. unfold send, answer_to, after_send. by destruct (serve _ _). Qed.

Lemma with_cache_id c : with_cache c (_database_cache c) = c.
Proof. by destruct c. Qed.

Lemma same_settings_with_cache c m : same_settings c (with_cache c m).
Proof. by repeat split. Qed.

(** ** [databases] *)

Lemma databases_run c e :
  databases (c, e) =
    let res1 := answer_to e (list_user_request c) in
    let e1 := after_send e (list_user_request c) in
    if decide (status_code res1 ≠ 200) then
      (inl (ArangoDatabaseListError res1), (c, e1))
    else
      let res2 := answer_to e1 (list_all_request c) in
      let e2 := after_send e1 (list_all_request c) in
      if decide (status_code res2 ≠ 200) then
        (inl (ArangoDatabaseListError res2), (c, e2))
      else
        (inr (mkDatabaseNames (obj_result (obj res1)) (obj_result (obj res2))),
         (c, e2)).
Proof.
  unfold databases, bind, get_self, env, Connection_get.
  rewrite send_run. cbn.
  destruct (decide (status_code _ ≠ 200)); [done|].
  rewrite send_run. cbn.
  by destruct (decide (status_code _ ≠ 200)).
Qed.

Lemma databases_self c e : (databases (c, e)).2.1 = c.
Proof.
  rewrite databases_run. cbn.
  repeat (destruct (decide _); [done|]). done.
Qed.

Lemma databases_next_oid c e : next_oid (databases (c, e)).2.2 = next_oid e.
Proof.
  rewrite databases_run. cbn.
  repeat (destruct (decide _); [done|]). done.
Qed.

(** ** The two loops of the rebuild *)

Lemma for_each_cache_del l c e :
  for_each l cache_del (c, e) =
    (inr tt, (with_cache c (evict_all l (_database_cache c)), e)).
Proof.
  revert c. induction l as [|a l IH]; intros c; cbn.
  - by rewrite with_cache_id.
  - unfold bind. cbn. by rewrite IH.
Qed.

Lemma evict_all_lookup l (m : gmap string Database) n :
  evict_all l m !! n = if decide (n ∈ l) then None else m !! n.
Proof.
  unfold evict_all. revert m. induction l as [|a l IH]; intros m; cbn.
  - rewrite decide_False; [done|]. apply not_elem_of_nil.
  - rewrite IH. destruct (decide (n = a)) as [->|Hne].
    + rewrite lookup_delete_eq. rewrite (decide_True (P := a ∈ a :: l)); [|left].
      by destruct (decide _).
    + rewrite lookup_delete_ne; [|done].
      destruct (decide (n ∈ l)) as [Hin|Hin].
      * rewrite decide_True; [done|]. by right.
      * rewrite decide_False; [done|]. by intros [?|?]%elem_of_cons.
Qed.

Lemma fill_all_with_cache c m o l (m' : gmap string Database) :
  fill_all (with_cache c m) o l m' = fill_all c o l m'.
Proof.
  revert o m'. induction l as [|a l IH]; intros o m'; cbn; [done|].
  by rewrite IH.
Qed.

Lemma for_each_cache_fill l c e :
  for_each l cache_fill (c, e) =
    (inr tt,
     (with_cache c (fill_all c (next_oid e) l (_database_cache c)),
      mkEnv (server e) (trace e) (next_oid e + 2 * length l)%nat)).
Proof.
  revert c e. induction l as [|a l IH]; intros c e; cbn [for_each].
  - cbn. rewrite with_cache_id, Nat.add_0_r. by destruct e.
  - unfold bind at 1. cbn. rewrite IH. cbn.
    rewrite fill_all_with_cache. do 3 f_equal. f_equal. lia.
Qed.

Lemma fill_all_notin c o l (m : gmap string Database) n :
  n ∉ l → fill_all c o l m !! n = m !! n.
Proof.
  revert o m. induction l as [|a l IH]; intros o m Hn; cbn; [done|].
  apply not_elem_of_cons in Hn as [Hne Hn].
  rewrite IH; [|done]. by rewrite lookup_insert_ne.
Qed.

Lemma fill_all_lookup c o l (m : gmap string Database) i n :
  NoDup l → l !! i = Some n →
  fill_all c o l m !! n = Some (fresh_handle c (o + 2 * i) n).
Proof.
  revert o m i. induction l as [|a l IH]; intros o m i Hnd Hi; [done|].
  apply NoDup_cons in Hnd as [Ha Hnd]. destruct i as [|i]; cbn in *.
  - injection Hi as ->. rewrite fill_all_notin; [|done].
    rewrite lookup_insert_eq. by rewrite Nat.add_0_r.
  - rewrite (IH _ _ i); [|done..]. do 2 f_equal. lia.
Qed.

(** ** [_invalidate_database_cache] *)

Lemma invalidate_run_err c e err st1 :
  databases (c, e) = (inl err, st1) →
  _invalidate_database_cache (c, e) = (inl err, st1).
Proof.
  intros Hd. unfold _invalidate_database_cache, bind at 1. by rewrite Hd.
Qed.

Lemma invalidate_run_ok c e d st1 :
  databases (c, e) = (inr d, st1) →
  _invalidate_database_cache (c, e) =
    (inr tt,
     (rebuild c (next_oid e) (all d),
      mkEnv (server st1.2) (trace st1.2)
        (next_oid e + 2 * length (elements
           ((list_to_set (all d) : gset string) ∖ dom (_database_cache c))))%nat)).
Proof.
  intros Hd.
  pose proof (databases_self c e) as Hc.
  pose proof (databases_next_oid c e) as Ho.
  rewrite Hd in Hc, Ho. destruct st1 as [c1 e1]. cbn in Hc, Ho. subst c1.
  unfold _invalidate_database_cache, bind at 1. rewrite Hd.
  unfold bind, get_self. rewrite for_each_cache_del, for_each_cache_fill.
  cbn. rewrite fill_all_with_cache, Ho. done.
Qed.

Lemma rebuild_settings c o live : same_settings c (rebuild c o live).
Proof. apply same_settings_with_cache. Qed.

Lemma rebuild_gone c o live n :
  n ∉ live → _database_cache (rebuild c o live) !! n = None.
Proof.
  intros Hn. cbn. rewrite fill_all_notin.
  - rewrite evict_all_lookup. destruct (decide _) as [|Hout]; [done|].
    apply not_elem_of_dom. intros Hdom. apply Hout.
    by rewrite elem_of_elements, elem_of_difference, elem_of_list_to_set.
  - rewrite elem_of_elements, elem_of_difference, elem_of_list_to_set. tauto.
Qed.

Lemma rebuild_keep c o live n h :
  n ∈ live → _database_cache c !! n = Some h →
  _database_cache (rebuild c o live) !! n = Some h.
Proof.
  intros Hn Hh. cbn.
  assert (n ∈ dom (_database_cache c)) as Hdom by (apply elem_of_dom; eauto).
  rewrite fill_all_notin.
  - rewrite evict_all_lookup, decide_False; [done|].
    rewrite elem_of_elements, elem_of_difference, elem_of_list_to_set. tauto.
  - rewrite elem_of_elements, elem_of_difference, elem_of_list_to_set. tauto.
Qed.

Lemma rebuild_new c o live n :
  n ∈ live → _database_cache c !! n = None →
  ∃ i, elements ((list_to_set live : gset string) ∖ dom (_database_cache c)) !! i = Some n ∧
       _database_cache (rebuild c o live) !! n = Some (fresh_handle c (o + 2 * i) n).
Proof.
  intros Hn Hh. apply not_elem_of_dom in Hh.
  assert (n ∈ elements ((list_to_set live : gset string) ∖ dom (_database_cache c)))
    as [i Hi]%list_elem_of_lookup by set_solver.
  exists i. split; [done|]. cbn.
  apply fill_all_lookup; [apply NoDup_elements | done].
Qed.

Lemma rebuild_dom c o live :
  dom (_database_cache (rebuild c o live)) = list_to_set live.
Proof.
  apply set_eq. intros n. rewrite elem_of_dom, elem_of_list_to_set.
  split.
  - intros Hs. destruct (decide (n ∈ live)) as [|Hn]; [done|].
    rewrite (rebuild_gone _ _ _ _ Hn) in Hs. by destruct Hs.
  - intros Hn. destruct (_database_cache c !! n) as [h|] eqn:Hh.
    + rewrite (rebuild_keep _ _ _ _ _ Hn Hh). eauto.
    + destruct (rebuild_new c o live n Hn Hh) as (i & _ & ->). eauto.
Qed.

Lemma rebuild_lookup_inv c o live k h :
  _database_cache (rebuild c o live) !! k = Some h →
  k ∈ live ∧
  (_database_cache c !! k = Some h ∨
   _database_cache c !! k = None ∧ ∃ i, h = fresh_handle c (o + 2 * i) k).
Proof.
  intros Hk. destruct (decide (k ∈ live)) as [Hin|Hout].
  - split; [done|]. destruct (_database_cache c !! k) as [h'|] eqn:Hc.
    + left. rewrite (rebuild_keep _ _ _ _ _ Hin Hc) in Hk. done.
    + right. split; [done|].
      destruct (rebuild_new c o live k Hin Hc) as (i & _ & Hi).
      exists i. congruence.
  - rewrite (rebuild_gone _ _ _ _ Hout) in Hk. done.
Qed.

Lemma databases_err c e err st1 :
  databases (c, e) = (inl err, st1) →
  ∃ res, err = ArangoDatabaseListError res ∧ status_code res ≠ 200 ∧ st1.1 = c.
Proof.
  rewrite databases_run. cbn. intros Hd.
  destruct (decide _) as [Hs1|_] in Hd.
  { injection Hd as <- <-. eauto. }
  destruct (decide _) as [Hs2|_] in Hd; [|done].
  injection Hd as <- <-. eauto.
Qed.

(** A rebuild either fails as [databases] failed, touching nothing, or
    turns [self] into its [rebuild]. *)
Lemma invalidate_cases c e :
  (∃ res st1,
      databases (c, e) = (inl (ArangoDatabaseListError res), st1) ∧
      status_code res ≠ 200 ∧ st1.1 = c ∧
      _invalidate_database_cache (c, e) = (inl (ArangoDatabaseListError res), st1)) ∨
  (∃ d st1 e',
      databases (c, e) = (inr d, st1) ∧
      server e' = server st1.2 ∧ trace e' = trace st1.2 ∧
      _invalidate_database_cache (c, e) =
        (inr tt, (rebuild c (next_oid e) (all d), e'))).
Proof.
  destruct (databases (c, e)) as [[err|d] st1] eqn:Hd.
  - left. destruct (databases_err _ _ _ _ Hd) as (res & -> & Hs & Hc).
    exists res, st1. eauto using invalidate_run_err.
  - right. rewrite (invalidate_run_ok _ _ _ _ Hd).
    by eexists d, st1, (mkEnv _ _ _).
Qed.

(** ** The operations, one step at a time *)

Lemma init_run protocol host port username password e :
  __init__ protocol host port username password e =
    let conn := mkConnection (next_oid e) protocol host port username password None in
    let res := answer_to e (version_head_request conn) in
    let e1 := after_send e (version_head_request conn) in
    if decide (status_code res ≠ 200) then
      (inl (ArangoConnectionError host (status_code res) (reason res)),
       mkEnv (server e1) (trace e1) (S (next_oid e)))
    else
      (inr (mkArangoDB protocol host port username password conn ∅
              (mkDatabase (S (next_oid e)) "_system" conn)),
       mkEnv (server e1) (trace e1) (S (S (next_oid e)))).
Proof.
  unfold __init__, bind, Connection_new, Database_new, alloc, bind, ret,
    Connection_head. cbn. rewrite send_run. cbn.
  by destruct (decide _).
Qed.

Lemma version_run c e :
  version (c, e) =
    let res := answer_to e (version_request c) in
    if decide (status_code res ≠ 200) then
      (inl (ArangoVersionError res), (c, after_send e (version_request c)))
    else (inr (obj_version (obj res)), (c, after_send e (version_request c))).
Proof.
  unfold version, bind, get_self, env, Connection_get. rewrite send_run. cbn.
  by destruct (decide _).
Qed.

Lemma db_hit n c e h :
  _database_cache c !! n = Some h → db n (c, e) = (inr h, (c, e)).
Proof. intros Hh. unfold db, bind, get_self. by rewrite Hh. Qed.

Lemma db_miss n c e :
  _database_cache c !! n = None →
  db n (c, e) =
    match _invalidate_database_cache (c, e) with
    | (inl err, st) => (inl err, st)
    | (inr _, st) =>
        match _database_cache st.1 !! n with
        | Some h => (inr h, st)
        | None => (inl (ArangoDatabaseNotFoundError n), st)
        end
    end.
Proof.
  intros Hh. unfold db, bind at 1, get_self. rewrite Hh. unfold bind, get_self.
  destruct (_invalidate_database_cache (c, e)) as [[err|[]] [c' e']]; [done|].
  cbn. by destruct (_database_cache c' !! n).
Qed.

Lemma create_database_run n users c e :
  create_database n users (c, e) =
    let res := answer_to e (create_request c n users) in
    let e1 := after_send e (create_request c n users) in
    if decide (status_code res ≠ 201) then
      (inl (ArangoDatabaseCreateError res), (c, e1))
    else _invalidate_database_cache (c, e1).
Proof.
  unfold create_database, bind at 1, get_self, bind at 1, env, Connection_post.
  rewrite send_run. cbn. by destruct (decide _).
Qed.

Lemma delete_database_run n c e :
  delete_database n (c, e) =
    let res := answer_to e (delete_request c n) in
    let e1 := after_send e (delete_request c n) in
    if decide (status_code res ≠ 200) then
      (inl (ArangoDatabaseDeleteError res), (c, e1))
    else _invalidate_database_cache (c, e1).
Proof.
  unfold delete_database, bind at 1, get_self, bind at 1, env, Connection_delete.
  rewrite send_run. cbn. by destruct (decide _).
Qed.

(** ** Construction *)

(** C9: construction sends one request, the HEAD of the version endpoint,
    and nothing else; it raises [ArangoConnectionError] exactly when the
    answer's status is not 200 (503 for one); on 200 it returns the
    client with an empty database cache and the default handle named
    ["_system"]. *)
Theorem init_contract protocol host port username password e :
  let conn := mkConnection (next_oid e) protocol host port username password None in
  let res := answer_to e (version_head_request conn) in
  let r := __init__ protocol host port username password e in
  trace r.2 = trace e ++ [version_head_request conn] ∧
  ((∃ err, r.1 = inl err) ↔ status_code res ≠ 200) ∧
  (status_code res ≠ 200 →
     r.1 = inl (ArangoConnectionError host (status_code res) (reason res))) ∧
  (status_code res = 503 → ∃ why, r.1 = inl (ArangoConnectionError host 503 why)) ∧
  (status_code res = 200 →
     ∃ c, r.1 = inr c ∧
          _database_cache c = ∅ ∧
          name (_default_database c) = "_system" ∧
          client (_default_database c) = conn ∧
          _conn c = conn ∧
          _protocol c = protocol ∧ _host c = host ∧ _port c = port ∧
          _username c = username ∧ _password c = password).
Proof.
  intros conn res r. subst r. rewrite init_run. cbn zeta. fold conn. fold res.
  destruct (decide (status_code res ≠ 200)) as [Hs|Hs]; cbn [fst snd trace].
  - split; [done|]. split; [split; eauto|]. split; [done|].
    split; [|done]. intros Hs5. rewrite Hs5. eauto.
  - apply dec_stable in Hs. split; [done|].
    split; [split; [by intros [err ?] | done]|]. split; [done|].
    split; [intros Hs5; rewrite Hs in Hs5; done|].
    intros _. eexists. repeat split; done.
Qed.

(** ** Listing *)

(** C8: [databases] asks for the user's databases, then for all of them,
    and returns the two result lists as the server gave them; a status
    other than 200 on the first request raises [ArangoDatabaseListError]
    with that response (the second request is then not sent), and so does
    a status other than 200 on the second. *)
Theorem databases_contract c e :
  let res1 := answer_to e (list_user_request c) in
  let e1 := after_send e (list_user_request c) in
  let res2 := answer_to e1 (list_all_request c) in
  let r := databases (c, e) in
  r.2.1 = c ∧
  (status_code res1 ≠ 200 →
     r.1 = inl (ArangoDatabaseListError res1) ∧
     trace r.2.2 = trace e ++ [list_user_request c]) ∧
  (status_code res1 = 200 → status_code res2 ≠ 200 →
     r.1 = inl (ArangoDatabaseListError res2) ∧
     trace r.2.2 = trace e ++ [list_user_request c; list_all_request c]) ∧
  (status_code res1 = 200 → status_code res2 = 200 →
     r.1 = inr (mkDatabaseNames (obj_result (obj res1)) (obj_result (obj res2))) ∧
     trace r.2.2 = trace e ++ [list_user_request c; list_all_request c]) ∧
  (obj_result (obj res1) = ["_system"; "foo"] →
   obj_result (obj res2) = ["_system"; "foo"] →
   status_code res1 = 200 → status_code res2 = 200 →
     r.1 = inr (mkDatabaseNames ["_system"; "foo"] ["_system"; "foo"])).
Proof.
  intros res1 e1 res2 r. subst r. split; [apply databases_self|].
  rewrite databases_run. cbn zeta. fold res1. fold e1. fold res2.
  destruct (decide (status_code res1 ≠ 200)) as [H1|H1];
    [|destruct (decide (status_code res2 ≠ 200)) as [H2|H2]];
    cbn [fst snd trace after_send].
  - repeat split; done.
  - repeat split; try done. unfold e1. cbn. by rewrite <- app_assoc.
  - repeat split; try done.
    + unfold e1. cbn. by rewrite <- app_assoc.
    + intros -> ->. done.
Qed.

(** ** Errors *)

Lemma invalidate_err c e err st :
  _invalidate_database_cache (c, e) = (inl err, st) →
  ∃ res, err = ArangoDatabaseListError res ∧ status_code res ≠ 200.
Proof.
  destruct (invalidate_cases c e) as
    [(res & st1 & _ & Hs & _ & ->)|(d & st1 & e' & _ & _ & _ & ->)];
    intros [= <- <-]; eauto.
Qed.

(** C1, as the code has it: every operation raises its own error kind,
    and the three operations that rebuild the cache ([db],
    [create_database], [delete_database]) also let through the
    [ArangoDatabaseListError] of the listing the rebuild starts with.
    Construction raises [ArangoConnectionError] only, [version]
    [ArangoVersionError] only, [databases] [ArangoDatabaseListError]
    only. *)
Theorem error_kinds c e :
  (∀ protocol host port username password err e',
      __init__ protocol host port username password e = (inl err, e') →
      ∃ status why, err = ArangoConnectionError host status why ∧ status ≠ 200) ∧
  (∀ err st, version (c, e) = (inl err, st) →
      ∃ res, err = ArangoVersionError res ∧ status_code res ≠ 200) ∧
  (∀ err st, databases (c, e) = (inl err, st) →
      ∃ res, err = ArangoDatabaseListError res ∧ status_code res ≠ 200) ∧
  (∀ n err st, db n (c, e) = (inl err, st) →
      err = ArangoDatabaseNotFoundError n ∨
      ∃ res, err = ArangoDatabaseListError res ∧ status_code res ≠ 200) ∧
  (∀ n users err st, create_database n users (c, e) = (inl err, st) →
      (∃ res, err = ArangoDatabaseCreateError res ∧ status_code res ≠ 201) ∨
      ∃ res, err = ArangoDatabaseListError res ∧ status_code res ≠ 200) ∧
  (∀ n err st, delete_database n (c, e) = (inl err, st) →
      (∃ res, err = ArangoDatabaseDeleteError res ∧ status_code res ≠ 200) ∨
      ∃ res, err = ArangoDatabaseListError res ∧ status_code res ≠ 200).
Proof.
  repeat split.
  - intros protocol host port username password err e'.
    rewrite init_run. cbn zeta.
    destruct (decide _) as [Hs|_]; [|done]. intros [= <- <-]. eauto.
  - intros err st. rewrite version_run. cbn zeta.
    destruct (decide _) as [Hs|_]; [|done]. intros [= <- <-]. eauto.
  - intros err st Hd. destruct (databases_err _ _ _ _ Hd) as (res & ? & ? & _).
    eauto.
  - intros n err st. destruct (_database_cache c !! n) as [h|] eqn:Hc.
    + by rewrite (db_hit _ _ _ _ Hc).
    + rewrite (db_miss _ _ _ Hc).
      destruct (_invalidate_database_cache (c, e)) as [[err'|[]] st'] eqn:Hi.
      * intros [= <- <-]. right. eapply invalidate_err, Hi.
      * destruct (_database_cache st'.1 !! n); [done|].
        intros [= <- <-]. by left.
  - intros n users err st. rewrite create_database_run. cbn zeta.
    destruct (decide _) as [Hs|_].
    + intros [= <- <-]. left. eauto.
    + intros Hi. right. eapply invalidate_err, Hi.
  - intros n err st. rewrite delete_database_run. cbn zeta.
    destruct (decide _) as [Hs|_].
    + intros [= <- <-]. left. eauto.
    + intros Hi. right. eapply invalidate_err, Hi.
Qed.

(** ** The rebuild *)

(** C4: when the listing succeeds with [d], the rebuild returns normally
    and (1) leaves every attribute but the cache alone and sends nothing
    beyond the listing, (2) leaves the cache with exactly the names of
    [all d], so that the cached names absent from the listing are gone,
    (3) keeps each entry whose name is listed as the very same handle,
    (4) gives each listed name that was not cached a handle built during
    the rebuild, named after it, on a connection of its own scoped to
    that name, and (5) gives distinct new names distinct handles and
    distinct connections. *)
Theorem invalidate_reconciles c e d st1 :
  databases (c, e) = (inr d, st1) →
  ∃ c' e',
    _invalidate_database_cache (c, e) = (inr tt, (c', e')) ∧
    (same_settings c c' ∧ server e' = server st1.2 ∧ trace e' = trace st1.2) ∧
    (∀ n, _database_cache c' !! n = None ↔ n ∉ all d) ∧
    (∀ n h, n ∈ all d → _database_cache c !! n = Some h →
            _database_cache c' !! n = Some h) ∧
    (∀ n, n ∈ all d → _database_cache c !! n = None →
          ∃ o, (next_oid e ≤ o ∧ S o < next_oid e')%nat ∧
               _database_cache c' !! n = Some (fresh_handle c o n)) ∧
    (∀ n m h k, n ≠ m →
          _database_cache c !! n = None → _database_cache c !! m = None →
          _database_cache c' !! n = Some h → _database_cache c' !! m = Some k →
          db_oid h ≠ db_oid k ∧ conn_oid (client h) ≠ conn_oid (client k) ∧
          db_oid h ≠ conn_oid (client k)).
Proof.
  intros Hd. eexists _, _. split; [apply (invalidate_run_ok _ _ _ _ Hd)|].
  split; [by split; [apply rebuild_settings|]|].
  split; [|split; [|split]].
  - intros n. split.
    + intros Hnone Hin.
      assert (n ∈ dom (_database_cache (rebuild c (next_oid e) (all d)))) as Hdom
        by (rewrite rebuild_dom; by apply elem_of_list_to_set).
      apply elem_of_dom in Hdom as [h Hh]. congruence.
    + apply rebuild_gone.
  - intros n h. apply rebuild_keep.
  - intros n Hin Hc.
    destruct (rebuild_new c (next_oid e) (all d) n Hin Hc) as (i & Hi & Hh).
    exists (next_oid e + 2 * i)%nat. split; [|done].
    apply lookup_lt_Some in Hi. cbn. lia.
  - intros n m h k Hne Hn Hm Hh Hk.
    destruct (rebuild_lookup_inv _ _ _ _ _ Hh) as [Hin [?|[_ [i' ->]]]]; [congruence|].
    destruct (rebuild_lookup_inv _ _ _ _ _ Hk) as [Him [?|[_ [j' ->]]]]; [congruence|].
    destruct (rebuild_new c (next_oid e) (all d) n Hin Hn) as (i & Hi & Hh').
    destruct (rebuild_new c (next_oid e) (all d) m Him Hm) as (j & Hj & Hk').
    rewrite Hh in Hh'. rewrite Hk in Hk'.
    injection Hh' as Hh'. injection Hk' as Hk'.
    assert (i ≠ j) by (intros ->; congruence).
    cbn. lia.
Qed.

(** C7: a second rebuild right after a successful one, against a listing
    with the same names, returns normally and leaves the client as the
    first rebuild left it, constructing nothing. *)
Theorem invalidate_idempotent c e d st1 c1 e1 d2 st2 :
  databases (c, e) = (inr d, st1) →
  _invalidate_database_cache (c, e) = (inr tt, (c1, e1)) →
  databases (c1, e1) = (inr d2, st2) →
  (∀ n, n ∈ all d2 ↔ n ∈ all d) →
  ∃ e2, _invalidate_database_cache (c1, e1) = (inr tt, (c1, e2)) ∧
        next_oid e2 = next_oid e1 ∧
        (let* _ := _invalidate_database_cache in _invalidate_database_cache) (c, e)
          = (inr tt, (c1, e2)).
Proof.
  intros Hd Hi0 Hd2 Hsame. pose proof Hi0 as Hi.
  rewrite (invalidate_run_ok _ _ _ _ Hd) in Hi. injection Hi as Hc1 _.
  assert (dom (_database_cache c1) = list_to_set (all d2)) as Hdom.
  { rewrite <- Hc1, rebuild_dom. apply set_eq. intros n.
    rewrite !elem_of_list_to_set. by rewrite Hsame. }
  assert (_invalidate_database_cache (c1, e1) =
          (inr tt, (c1, mkEnv (server st2.2) (trace st2.2) (next_oid e1)))) as Hi2.
  { rewrite (invalidate_run_ok _ _ _ _ Hd2). unfold rebuild. cbn zeta.
    rewrite Hdom, difference_diag_L, elements_empty. cbn.
    rewrite with_cache_id. do 3 f_equal. lia. }
  eexists. split; [exact Hi2|]. split; [done|].
  unfold bind. rewrite Hi0. exact Hi2.
Qed.

(** ** The cache invariant *)

Lemma cache_wf_fresh c o k :
  name (fresh_handle c o k) = k ∧
  conn_db_name (client (fresh_handle c o k)) = Some k ∧
  conn_protocol (client (fresh_handle c o k)) = _protocol c ∧
  conn_host (client (fresh_handle c o k)) = _host c ∧
  conn_port (client (fresh_handle c o k)) = _port c ∧
  conn_username (client (fresh_handle c o k)) = _username c ∧
  conn_password (client (fresh_handle c o k)) = _password c.
Proof. by repeat split. Qed.

Lemma cache_wf_rebuild c o live : cache_wf c → cache_wf (rebuild c o live).
Proof.
  intros Hwf k h Hk.
  destruct (rebuild_lookup_inv _ _ _ _ _ Hk) as [_ [Hc|[_ [i ->]]]].
  - exact (Hwf k h Hc).
  - exact (cache_wf_fresh c _ k).
Qed.

Lemma cache_wf_invalidate c e :
  cache_wf c → cache_wf (_invalidate_database_cache (c, e)).2.1.
Proof.
  intros Hwf.
  destruct (invalidate_cases c e) as
    [(res & st1 & _ & _ & Hc & ->)|(d & st1 & e' & _ & _ & _ & ->)]; cbn.
  - by rewrite Hc.
  - by apply cache_wf_rebuild.
Qed.

(** C10: the cache is well formed after construction, and every
    operation that starts from a well-formed cache ends with one,
    whether it returns or raises. *)
Theorem cache_wf_preserved c e :
  cache_wf c →
  cache_wf (version (c, e)).2.1 ∧
  cache_wf (databases (c, e)).2.1 ∧
  cache_wf (_invalidate_database_cache (c, e)).2.1 ∧
  (∀ n, cache_wf (db n (c, e)).2.1) ∧
  (∀ n users, cache_wf (create_database n users (c, e)).2.1) ∧
  (∀ n, cache_wf (delete_database n (c, e)).2.1) ∧
  (∀ protocol host port username password c0 e0,
      __init__ protocol host port username password e = (inr c0, e0) →
      cache_wf c0).
Proof.
  intros Hwf. split_and!.
  - rewrite version_run. cbn zeta. by destruct (decide _).
  - by rewrite databases_self.
  - by apply cache_wf_invalidate.
  - intros n. destruct (_database_cache c !! n) as [h|] eqn:Hc.
    + by rewrite (db_hit _ _ _ _ Hc).
    + rewrite (db_miss _ _ _ Hc).
      pose proof (cache_wf_invalidate c e Hwf) as Hwf'.
      destruct (_invalidate_database_cache (c, e)) as [[err|[]] st']; [done|].
      by destruct (_database_cache st'.1 !! n).
  - intros n users. rewrite create_database_run. cbn zeta.
    destruct (decide _); [done|]. by apply cache_wf_invalidate.
  - intros n. rewrite delete_database_run. cbn zeta.
    destruct (decide _); [done|]. by apply cache_wf_invalidate.
  - intros protocol host port username password c0 e0.
    rewrite init_run. cbn zeta. destruct (decide _); [done|].
    intros [= <- <-] k h Hk. cbn in Hk. by rewrite lookup_empty in Hk.
Qed.

(** ** Lookup *)

(** C3, as the code has it: a cached name is answered from the cache,
    with no request and no change; a name that is not cached triggers
    one rebuild and a second look at the cache; and a name that is
    neither cached nor in the listing that rebuild fetches raises
    [ArangoDatabaseNotFoundError] with that name, the listing having
    been fetched once. *)
Theorem db_contract n c e :
  (∀ h, _database_cache c !! n = Some h → db n (c, e) = (inr h, (c, e))) ∧
  (_database_cache c !! n = None →
     db n (c, e) =
       match _invalidate_database_cache (c, e) with
       | (inl err, st) => (inl err, st)
       | (inr _, st) =>
           match _database_cache st.1 !! n with
           | Some h => (inr h, st)
           | None => (inl (ArangoDatabaseNotFoundError n), st)
           end
       end) ∧
  (∀ d st1, _database_cache c !! n = None →
     databases (c, e) = (inr d, st1) → n ∉ all d →
     ∃ st, db n (c, e) = (inl (ArangoDatabaseNotFoundError n), st) ∧
           _invalidate_database_cache (c, e) = (inr tt, st) ∧
           trace st.2 = trace e ++ [list_user_request c; list_all_request c]).
Proof.
  split; [apply db_hit|]. split; [apply db_miss|].
  intros d st1 Hc Hd Hn. rewrite (db_miss _ _ _ Hc).
  rewrite (invalidate_run_ok _ _ _ _ Hd). cbn [fst snd].
  rewrite (rebuild_gone _ _ _ _ Hn). eexists. split; [done|]. split; [done|].
  cbn. clear Hn. rewrite databases_run in Hd. cbn zeta in Hd.
  repeat (destruct (decide _) in Hd; [done|]). injection Hd as _ <-.
  cbn. by rewrite <- app_assoc.
Qed.

(** ** Creation and deletion *)

Lemma databases_trace c e :
  ∃ rest, trace (databases (c, e)).2.2 = trace e ++ rest ∧
          Forall (λ r, req_verb r = GET) rest.
Proof.
  rewrite databases_run. cbn zeta.
  repeat destruct (decide _); cbn; rewrite <- ?app_assoc;
    eexists; (split; [reflexivity|]); repeat constructor.
Qed.

Lemma invalidate_trace c e :
  trace (_invalidate_database_cache (c, e)).2.2 = trace (databases (c, e)).2.2.
Proof.
  destruct (invalidate_cases c e) as
    [(res & st1 & -> & _ & _ & ->)|(d & st1 & e' & -> & _ & Ht & ->)]; done.
Qed.

(** C2, as the code has it: the first request of [create_database] is
    the POST to /_api/database, the only one that carries a body, and
    its body holds the [users] member exactly when [users] is true in
    the sense of [if users]; for [users] left out ([None]), as for an
    empty dictionary or any other false value, the body is [{name}]
    alone. *)
Theorem create_database_body n users c e :
  let data := create_data n users in
  (∃ rest,
      trace (create_database n users (c, e)).2.2 =
        trace e ++ mkRequest POST (_conn c) "/_api/database" (Some data) :: rest ∧
      Forall (λ r, req_verb r = GET) rest) ∧
  (truthy users = true →
     data = <["users" := users]> {["name" := PyStr n]} ∧
     data !! "users" = Some users ∧ data !! "name" = Some (PyStr n)) ∧
  (truthy users = false →
     data = {["name" := PyStr n]} ∧ data !! "users" = None) ∧
  create_data n PyNone = {["name" := PyStr n]}.
Proof.
  intros data. split_and!.
  - rewrite create_database_run. cbn zeta.
    destruct (decide _); cbn [snd].
    + exists []. by split.
    + rewrite invalidate_trace.
      destruct (databases_trace c (after_send e (create_request c n users)))
        as (rest & -> & Hrest).
      exists rest. split; [|done]. cbn. by rewrite <- app_assoc.
  - intros Ht. subst data. unfold create_data. rewrite Ht.
    split; [done|]. split; [by rewrite lookup_insert_eq|].
    rewrite lookup_insert_ne by done. by rewrite lookup_singleton_eq.
  - intros Ht. subst data. unfold create_data. rewrite Ht.
    split; [done|]. by rewrite lookup_singleton_ne.
  - done.
Qed.

(** C5: when the POST is answered 201 and the listing the rebuild then
    fetches includes ["x"], [create_database] returns normally and leaves
    ["x"] in the cache; the [db] call that follows returns that cached
    handle and changes nothing: no request is sent, nothing is built. *)
Theorem create_then_db x users c e d st1 :
  status_code (answer_to e (create_request c x users)) = 201 →
  databases (c, after_send e (create_request c x users)) = (inr d, st1) →
  x ∈ all d →
  ∃ c1 e1 h,
    create_database x users (c, e) = (inr tt, (c1, e1)) ∧
    _database_cache c1 !! x = Some h ∧
    db x (c1, e1) = (inr h, (c1, e1)).
Proof.
  intros Hs Hd Hx. rewrite create_database_run. cbn zeta.
  rewrite decide_False by (by intros ?).
  rewrite (invalidate_run_ok _ _ _ _ Hd).
  set (c1 := rebuild _ _ _).
  assert (is_Some (_database_cache c1 !! x)) as [h Hh].
  { apply elem_of_dom. unfold c1. rewrite rebuild_dom.
    by apply elem_of_list_to_set. }
  eexists c1, _, h. split; [done|]. split; [done|]. by apply db_hit.
Qed.

(** C6: when [delete_database] has returned normally, the listing its
    rebuild fetched no longer has ["x"], and neither has the next
    listing, the [db] call that follows raises
    [ArangoDatabaseNotFoundError] with ["x"]. *)
Theorem delete_then_db x c e d st1 c1 e1 d2 st2 :
  delete_database x (c, e) = (inr tt, (c1, e1)) →
  databases (c, after_send e (delete_request c x)) = (inr d, st1) →
  x ∉ all d →
  databases (c1, e1) = (inr d2, st2) →
  x ∉ all d2 →
  ∃ st, db x (c1, e1) = (inl (ArangoDatabaseNotFoundError x), st).
Proof.
  intros Hdel Hd Hx Hd2 Hx2. rewrite delete_database_run in Hdel. cbn zeta in Hdel.
  destruct (decide _) in Hdel; [done|].
  rewrite (invalidate_run_ok _ _ _ _ Hd) in Hdel. injection Hdel as Hc1 _.
  assert (_database_cache c1 !! x = None) as Hc.
  { rewrite <- Hc1. by apply rebuild_gone. }
  rewrite (db_miss _ _ _ Hc), (invalidate_run_ok _ _ _ _ Hd2). cbn [fst snd].
  rewrite (rebuild_gone _ _ _ _ Hx2). eauto.
Qed.

End Properties.

(** * Properties of calls and of sequences of calls *)

Section Calls.
Context {Server : Type} `{!HttpServer Server}.
Implicit Types (c self : ArangoDB) (e : Env Server) (st : St Server) (n : string).

(** ** What one call does to the client *)

Lemma invalidate_step c e :
  rebuilt_or_same c (next_oid e)
    (_invalidate_database_cache (c, e)).2.1
    (next_oid (_invalidate_database_cache (c, e)).2.2).
Proof.
  destruct (databases (c, e)) as [[err|d] st1] eqn:Hd.
  - left. rewrite (invalidate_run_err _ _ _ _ Hd).
    pose proof (databases_self c e) as Hc.
    pose proof (databases_next_oid c e) as Ho.
    rewrite Hd in Hc, Ho. done.
  - right. rewrite (invalidate_run_ok _ _ _ _ Hd). by exists (all d).
Qed.

Lemma call_step k c e :
  rebuilt_or_same c (next_oid e) (call k (c, e)).2.1 (next_oid (call k (c, e)).2.2).
Proof.
  destruct k as [| |n|n users|n]; cbn [call snd].
  - rewrite version_run. cbn zeta. left. by destruct (decide _).
  - left. by rewrite databases_self, databases_next_oid.
  - destruct (_database_cache c !! n) as [h|] eqn:Hc.
    + rewrite (db_hit _ _ _ _ Hc). by left.
    + rewrite (db_miss _ _ _ Hc). pose proof (invalidate_step c e) as Hs.
      destruct (_invalidate_database_cache (c, e)) as [[err|[]] st']; [done|].
      by destruct (_database_cache st'.1 !! n).
  - rewrite create_database_run. cbn zeta.
    destruct (decide _); [by left|]. apply (invalidate_step c (after_send e _)).
  - rewrite delete_database_run. cbn zeta.
    destruct (decide _); [by left|]. apply (invalidate_step c (after_send e _)).
Qed.

Lemma step_mono c o c' o' : rebuilt_or_same c o c' o' → (o ≤ o')%nat.
Proof. intros [[_ ->]|(live & _ & ->)]; lia. Qed.

Lemma step_settings c o c' o' : rebuilt_or_same c o c' o' → same_settings c c'.
Proof.
  intros [[-> _]|(live & -> & _)]; [by repeat split | apply rebuild_settings].
Qed.

Lemma step_wf c o c' o' : rebuilt_or_same c o c' o' → cache_wf c → cache_wf c'.
Proof.
  intros [[-> _]|(live & -> & _)]; [done | apply cache_wf_rebuild].
Qed.

(** A handle cached after the call was cached before under the same name,
    or is [fresh_handle] at an identity taken during the call. *)
Lemma step_lookup c o c' o' k h :
  rebuilt_or_same c o c' o' →
  _database_cache c' !! k = Some h →
  _database_cache c !! k = Some h ∨
  _database_cache c !! k = None ∧
    ∃ i, h = fresh_handle c (o + 2 * i) k ∧ (o + 2 * i + 1 < o')%nat.
Proof.
  intros [[-> _]|(live & -> & ->)] Hk; [by left|].
  destruct (rebuild_lookup_inv _ _ _ _ _ Hk) as [Hin [Hc|[Hc _]]]; [by left|].
  right. split; [done|].
  destruct (rebuild_new c o live k Hin Hc) as (i & Hi & Hh).
  rewrite Hk in Hh. injection Hh as ->.
  exists i. split; [done|]. apply lookup_lt_Some in Hi. lia.
Qed.

(** Two names that were not cached do not get the same identity. *)
Lemma step_new_inj c o c' o' k1 k2 i :
  rebuilt_or_same c o c' o' →
  _database_cache c !! k1 = None → _database_cache c !! k2 = None →
  _database_cache c' !! k1 = Some (fresh_handle c (o + 2 * i) k1) →
  _database_cache c' !! k2 = Some (fresh_handle c (o + 2 * i) k2) →
  k1 = k2.
Proof.
  intros [[-> _]|(live & -> & _)] Hc1 Hc2 H1 H2; [congruence|].
  destruct (rebuild_lookup_inv _ _ _ _ _ H1) as [Hin1 _].
  destruct (rebuild_lookup_inv _ _ _ _ _ H2) as [Hin2 _].
  destruct (rebuild_new c o live k1 Hin1 Hc1) as (i1 & Hi1 & Hh1).
  destruct (rebuild_new c o live k2 Hin2 Hc2) as (i2 & Hi2 & Hh2).
  rewrite H1 in Hh1. rewrite H2 in Hh2.
  injection Hh1 as Hh1. injection Hh2 as Hh2.
  assert (i1 = i2) as -> by lia. congruence.
Qed.

Lemma step_oids c o c' o' :
  rebuilt_or_same c o c' o' → oids_below o c → oids_below o' c'.
Proof.
  intros Hs (Hconn & Hdef & Hdefc & Hcache).
  pose proof (step_mono _ _ _ _ Hs) as Hle.
  destruct (step_settings _ _ _ _ Hs) as (_ & _ & _ & _ & _ & Hsc & Hsd).
  unfold oids_below. rewrite <- Hsc, <- Hsd.
  split; [lia|]. split; [lia|]. split; [lia|].
  intros k h Hk.
  destruct (step_lookup _ _ _ _ _ _ Hs Hk) as [Hold|[_ (i & -> & Hi)]].
  - destruct (Hcache k h Hold). lia.
  - cbn. lia.
Qed.

Lemma step_own c o c' o' :
  rebuilt_or_same c o c' o' → oids_below o c →
  own_connections c → own_connections c'.
Proof.
  intros Hs (Hconn & Hdef & Hdefc & Hcache) [Hinj Hsep].
  destruct (step_settings _ _ _ _ Hs) as (_ & _ & _ & _ & _ & Hsc & Hsd).
  split.
  - intros k1 k2 h1 h2 H1 H2 Heq.
    destruct (step_lookup _ _ _ _ _ _ Hs H1) as [Ho1|[Hn1 (i1 & -> & Hi1)]];
      destruct (step_lookup _ _ _ _ _ _ Hs H2) as [Ho2|[Hn2 (i2 & -> & Hi2)]].
    + eapply Hinj; eauto.
    + destruct (Hcache _ _ Ho1). cbn in Heq. lia.
    + destruct (Hcache _ _ Ho2). cbn in Heq. lia.
    + cbn in Heq. assert (i1 = i2) as -> by lia.
      eapply step_new_inj; eauto.
  - intros k h Hk. rewrite <- Hsc, <- Hsd.
    destruct (step_lookup _ _ _ _ _ _ Hs Hk) as [Ho|[Hn (i & -> & Hi)]].
    + destruct (Hsep k h Ho) as (? & ? & ? & Hx). split_and!; try done.
      intros k' h' Hk'.
      destruct (step_lookup _ _ _ _ _ _ Hs Hk') as [Ho'|[_ (i' & -> & _)]];
        [by eapply Hx|].
      destruct (Hcache _ _ Ho). cbn. lia.
    + cbn. split_and!; try lia.
      intros k' h' Hk'.
      destruct (step_lookup _ _ _ _ _ _ Hs Hk') as [Ho'|[_ (i' & -> & _)]].
      * destruct (Hcache _ _ Ho'). lia.
      * cbn. lia.
Qed.

(** ** What one call sends *)



(** ** Sequences *)

Lemma calls_cons k ks st : calls (k :: ks) st = calls ks (call k st).2.
Proof. done. Qed.

Lemma calls_app ks1 ks2 st : calls (ks1 ++ ks2) st = calls ks2 (calls ks1 st).
Proof. apply foldl_app. Qed.

(** An invariant of every call is an invariant of every sequence. *)
Lemma calls_invariant (I : St Server → Prop) :
  (∀ k st, I st → I (call k st).2) → ∀ ks st, I st → I (calls ks st).
Proof.
  intros Hstep ks. induction ks as [|k ks IH]; intros st Hst; [done|].
  rewrite calls_cons. by apply IH, Hstep.
Qed.

Lemma calls_settings ks st : same_settings st.1 (calls ks st).1.
Proof.
  revert st. induction ks as [|k ks IH]; intros [c e]; [by repeat split|].
  rewrite calls_cons.
  pose proof (step_settings _ _ _ _ (call_step k c e)) as Hs.
  specialize (IH (call k (c, e)).2).
  unfold same_settings in *. cbn [fst] in *.
  destruct Hs as (-> & -> & -> & -> & -> & -> & ->). exact IH.
Qed.

Lemma calls_mono ks st : (next_oid st.2 ≤ next_oid (calls ks st).2)%nat.
Proof.
  revert st. induction ks as [|k ks IH]; intros [c e]; [done|].
  rewrite calls_cons.
  pose proof (step_mono _ _ _ _ (call_step k c e)).
  specialize (IH (call k (c, e)).2). cbn [snd] in *. lia.
Qed.

Lemma calls_wf ks st : cache_wf st.1 → cache_wf (calls ks st).1.
Proof.
  apply (calls_invariant (λ st, cache_wf st.1)).
  intros k [c e]. apply (step_wf _ _ _ _ (call_step k c e)).
Qed.

Lemma calls_oids ks st :
  oids_below (next_oid st.2) st.1 ∧ own_connections st.1 →
  oids_below (next_oid (calls ks st).2) (calls ks st).1 ∧
  own_connections (calls ks st).1.
Proof.
  apply (calls_invariant (λ st, oids_below (next_oid st.2) st.1 ∧ own_connections st.1)).
  intros k [c e] [Hb Ho]. pose proof (call_step k c e) as Hs. split.
  - by apply (step_oids _ _ _ _ Hs).
  - by apply (step_own _ _ _ _ Hs).
Qed.

(** A handle cached after a sequence of calls was cached before it under
    the same name, or was constructed during it. *)
Lemma calls_lookup ks st k h :
  _database_cache (calls ks st).1 !! k = Some h →
  _database_cache st.1 !! k = Some h ∨
  (next_oid st.2 ≤ conn_oid (client h) ∧ next_oid st.2 < db_oid h)%nat.
Proof.
  revert st. induction ks as [|k0 ks IH]; intros [c e] Hk; [by left|].
  rewrite calls_cons in Hk. pose proof (call_step k0 c e) as Hs.
  pose proof (step_mono _ _ _ _ Hs) as Hle.
  destruct (IH _ Hk) as [Hold|Hnew]; cbn [fst snd] in *.
  - destruct (step_lookup _ _ _ _ _ _ Hs Hold) as [?|[_ (i & -> & _)]]; [by left|].
    right. cbn. lia.
  - right. lia.
Qed.

(** What a successful construction establishes. *)
Lemma init_state protocol host port username password e c e0 :
  __init__ protocol host port username password e = (inr c, e0) →
  c = mkArangoDB protocol host port username password
        (mkConnection (next_oid e) protocol host port username password None) ∅
        (mkDatabase (S (next_oid e)) "_system"
           (mkConnection (next_oid e) protocol host port username password None)) ∧
  next_oid e0 = S (S (next_oid e)).
Proof.
  rewrite init_run. cbn zeta. destruct (decide _); [done|]. by intros [= <- <-].
Qed.

Lemma init_invariants protocol host port username password e c e0 :
  __init__ protocol host port username password e = (inr c, e0) →
  cache_wf c ∧ oids_below (next_oid e0) c ∧ own_connections c.
Proof.
  intros [-> ->]%init_state. split_and!.
  - intros k h Hk. cbn in Hk. by rewrite lookup_empty in Hk.
  - unfold oids_below. cbn. split_and!; try lia.
    intros k h Hk. by rewrite lookup_empty in Hk.
  - split; cbn.
    + intros k1 k2 h1 h2 Hk. by rewrite lookup_empty in Hk.
    + intros k h Hk. by rewrite lookup_empty in Hk.
Qed.

(** ** [version] *)

(** X1: [version] sends one request, the GET of the version endpoint on
    the client's own connection; on status 200 it returns the version
    member of the body, on any other status it raises
    [ArangoVersionError] with the response; either way the client is left
    as it was and nothing is constructed. *)
Theorem version_contract c e :
  let res := answer_to e (version_request c) in
  let r := version (c, e) in
  r.2.1 = c ∧
  trace r.2.2 = trace e ++ [version_request c] ∧
  next_oid r.2.2 = next_oid e ∧
  (status_code res = 200 → r.1 = inr (obj_version (obj res))) ∧
  (status_code res ≠ 200 → r.1 = inl (ArangoVersionError res)).
Proof.
  intros res r. subst r. rewrite version_run. cbn zeta. fold res.
  destruct (decide (status_code res ≠ 200)) as [Hs|Hs]; cbn; split_and!; done.
Qed.

(** ** Requests *)





(** ** Failures *)

(** X4: a call that raises one of the response errors leaves the client
    exactly as it was and constructs nothing; only
    [ArangoDatabaseNotFoundError] is raised after the cache has been
    rebuilt. *)
Theorem failure_leaves_client k c e err :
  (call k (c, e)).1 = Some err →
  (∀ n, err ≠ ArangoDatabaseNotFoundError n) →
  (call k (c, e)).2.1 = c ∧ next_oid (call k (c, e)).2.2 = next_oid e.
Proof.
  assert (∀ e1, next_oid e1 = next_oid e →
            ∀ err', (_invalidate_database_cache (c, e1)).1 = inl err' →
            (_invalidate_database_cache (c, e1)).2.1 = c ∧
            next_oid (_invalidate_database_cache (c, e1)).2.2 = next_oid e) as Hinv.
  { intros e1 He1 err' Herr.
    destruct (databases (c, e1)) as [[err0|d] st1] eqn:Hd.
    - pose proof (databases_self c e1) as Hc.
      pose proof (databases_next_oid c e1) as Ho. rewrite Hd in Hc, Ho.
      rewrite (invalidate_run_err _ _ _ _ Hd). cbn in *. by rewrite Ho.
    - by rewrite (invalidate_run_ok _ _ _ _ Hd) in Herr. }
  destruct k as [| |n|n users|n]; cbn [call fst snd]; unfold raised.
  - rewrite version_run. cbn zeta. by destruct (decide _).
  - intros _ _. by rewrite databases_self, databases_next_oid.
  - destruct (_database_cache c !! n) as [h|] eqn:Hc.
    + by rewrite (db_hit _ _ _ _ Hc).
    + rewrite (db_miss _ _ _ Hc). specialize (Hinv e eq_refl).
      destruct (_invalidate_database_cache (c, e)) as [[err'|[]] st'].
      * intros _ _. by apply (Hinv err').
      * destruct (_database_cache st'.1 !! n); [done|].
        cbn. intros [= <-] Hnf. by destruct (Hnf n).
  - rewrite create_database_run. cbn zeta. destruct (decide _); [done|].
    specialize (Hinv (after_send e (create_request c n users)) eq_refl).
    destruct (_invalidate_database_cache _) as [[err'|[]] st'] eqn:Hi; [|done].
    intros _ _. by apply (Hinv err').
  - rewrite delete_database_run. cbn zeta. destruct (decide _); [done|].
    specialize (Hinv (after_send e (delete_request c n)) eq_refl).
    destruct (_invalidate_database_cache _) as [[err'|[]] st'] eqn:Hi; [|done].
    intros _ _. by apply (Hinv err').
Qed.

(** ** [db] *)

Lemma db_result_cached n c e h st' :
  db n (c, e) = (inr h, st') → _database_cache st'.1 !! n = Some h.
Proof.
  destruct (_database_cache c !! n) as [h0|] eqn:Hc.
  - rewrite (db_hit _ _ _ _ Hc). by intros [= <- <-].
  - rewrite (db_miss _ _ _ Hc).
    destruct (_invalidate_database_cache (c, e)) as [[err|[]] st1]; [done|].
    destruct (_database_cache st1.1 !! n) as [h1|] eqn:Hc1; [|done].
    by intros [= <- <-].
Qed.

(** X5: a handle returned by [db] is in the cache from then on: the same
    call repeated at once returns the same handle, sends nothing and
    changes nothing. *)
Theorem db_stable n st h st' :
  db n st = (inr h, st') → db n st' = (inr h, st').
Proof.
  destruct st as [c e], st' as [c' e']. intros Hdb.
  apply db_hit. apply (db_result_cached _ _ _ _ _ Hdb).
Qed.

(** X6: [db] returns a handle exactly when the name is cached, or the
    listing succeeds and has the name. *)
Theorem db_succeeds_iff n c e :
  (∃ h st', db n (c, e) = (inr h, st')) ↔
  is_Some (_database_cache c !! n) ∨
  ∃ d st1, databases (c, e) = (inr d, st1) ∧ n ∈ all d.
Proof.
  split.
  - intros (h & st' & Hdb).
    destruct (_database_cache c !! n) as [h0|] eqn:Hc; [left; eauto|]. right.
    rewrite (db_miss _ _ _ Hc) in Hdb.
    destruct (invalidate_cases c e) as
      [(res & st1 & _ & _ & _ & Hi)|(d & st1 & e1 & Hd & _ & _ & Hi)];
      rewrite Hi in Hdb; [done|]. cbn [fst] in Hdb.
    destruct (_database_cache (rebuild c (next_oid e) (all d)) !! n) as [h1|] eqn:Hr;
      [|done].
    exists d, st1. split; [done|]. by destruct (rebuild_lookup_inv _ _ _ _ _ Hr).
  - intros [[h Hc]|(d & st1 & Hd & Hin)].
    + rewrite (db_hit _ _ _ _ Hc). eauto.
    + destruct (_database_cache c !! n) as [h0|] eqn:Hc.
      * rewrite (db_hit _ _ _ _ Hc). eauto.
      * rewrite (db_miss _ _ _ Hc), (invalidate_run_ok _ _ _ _ Hd). cbn [fst].
        destruct (rebuild_new c (next_oid e) (all d) n Hin Hc) as (i & _ & ->).
        eauto.
Qed.

(** ** A constructed client, whatever is called on it *)

(** X7: after a successful construction and any sequence of calls, the
    five settings are the constructor's arguments, the client's
    connection is the unscoped one built from them, the default handle is
    still the ["_system"] handle on that very connection, and the cache is
    well formed. *)
Theorem constructed_client_invariant protocol host port username password e c e0 ks :
  __init__ protocol host port username password e = (inr c, e0) →
  let c' := (calls ks (c, e0)).1 in
  _protocol c' = protocol ∧ _host c' = host ∧ _port c' = port ∧
  _username c' = username ∧ _password c' = password ∧
  _conn c' = mkConnection (next_oid e) protocol host port username password None ∧
  _default_database c' = mkDatabase (S (next_oid e)) "_system" (_conn c') ∧
  cache_wf c'.
Proof.
  intros Hinit c'.
  destruct (init_invariants _ _ _ _ _ _ _ _ Hinit) as (Hwf & _ & _).
  pose proof (calls_wf ks (c, e0) Hwf) as Hwf'.
  pose proof (calls_settings ks (c, e0)) as (H1 & H2 & H3 & H4 & H5 & H6 & H7).
  apply init_state in Hinit as [-> _]. fold c' in H1, H2, H3, H4, H5, H6, H7, Hwf'.
  cbn in H1, H2, H3, H4, H5, H6, H7.
  rewrite <- H1, <- H2, <- H3, <- H4, <- H5, <- H6, <- H7. by split_and!.
Qed.

(** X8: after a successful construction and any sequence of calls, no two
    cached handles are the same object, no two use the same connection,
    and no cached handle is the default handle or uses the client's own
    connection, which the default handle does use. *)
Theorem connections_never_shared protocol host port username password e c e0 ks :
  __init__ protocol host port username password e = (inr c, e0) →
  let c' := (calls ks (c, e0)).1 in
  own_connections c' ∧ client (_default_database c') = _conn c'.
Proof.
  intros Hinit c'.
  destruct (init_invariants _ _ _ _ _ _ _ _ Hinit) as (_ & Hb & Ho).
  destruct (calls_oids ks (c, e0) (conj Hb Ho)) as [_ Ho']. split; [exact Ho'|].
  pose proof (calls_settings ks (c, e0)) as (_ & _ & _ & _ & _ & H6 & H7).
  apply init_state in Hinit as [-> _]. fold c' in H6, H7. by rewrite <- H6, <- H7.
Qed.

(** X9: on a constructed client, after any sequence of calls, a handle
    returned by [db n] is named [n], and its connection is scoped to [n]
    and carries the constructor's protocol, host, port and credentials. *)
Theorem db_handle_for_name protocol host port username password e c e0 ks n h st' :
  __init__ protocol host port username password e = (inr c, e0) →
  db n (calls ks (c, e0)) = (inr h, st') →
  name h = n ∧
  client h = mkConnection (conn_oid (client h)) protocol host port username password (Some n).
Proof.
  intros Hinit Hdb.
  destruct (init_invariants _ _ _ _ _ _ _ _ Hinit) as (Hwf & _ & _).
  pose proof (calls_wf (ks ++ [CallDb n]) (c, e0) Hwf) as Hwf'.
  pose proof (calls_settings (ks ++ [CallDb n]) (c, e0)) as (H1 & H2 & H3 & H4 & H5 & _).
  rewrite calls_app in Hwf', H1, H2, H3, H4, H5.
  cbn [calls foldl call snd fst] in Hwf', H1, H2, H3, H4, H5.
  destruct (calls ks (c, e0)) as [c2 e2]. rewrite Hdb in Hwf', H1, H2, H3, H4, H5.
  apply db_result_cached in Hdb.
  destruct (Hwf' n h Hdb) as (Hn & Hs & Hp & Hh & Hpo & Hu & Hpw).
  apply init_state in Hinit as [-> _]. cbn in H1, H2, H3, H4, H5.
  split; [done|]. destruct h as [oid nm [co cp ch cpo cu cpw cdb]]. cbn in *.
  congruence.
Qed.

(** X10: on a constructed client, after any sequence of calls, the handle
    returned by [db] is never the default handle and never uses the
    client's own connection, not even for ["_system"]. *)
Theorem db_never_default protocol host port username password e c e0 ks n h st' :
  __init__ protocol host port username password e = (inr c, e0) →
  db n (calls ks (c, e0)) = (inr h, st') →
  db_oid h ≠ db_oid (_default_database c) ∧
  conn_oid (client h) ≠ conn_oid (_conn c) ∧
  client h ≠ client (_default_database c).
Proof.
  intros Hinit Hdb.
  destruct (init_invariants _ _ _ _ _ _ _ _ Hinit) as (_ & Hb & Ho).
  destruct (calls_oids (ks ++ [CallDb n]) (c, e0) (conj Hb Ho)) as [_ [_ Hsep]].
  pose proof (calls_settings (ks ++ [CallDb n]) (c, e0)) as (_ & _ & _ & _ & _ & H6 & H7).
  rewrite calls_app in Hsep, H6, H7. cbn [calls foldl call snd fst] in Hsep, H6, H7.
  destruct (calls ks (c, e0)) as [c2 e2]. rewrite Hdb in Hsep, H6, H7.
  apply db_result_cached in Hdb.
  destruct (Hsep n h Hdb) as (Hd & Hc & _). rewrite <- H6 in Hc. rewrite <- H7 in Hd.
  split; [done|]. split; [done|].
  apply init_state in Hinit as [-> _]. cbn in *. intros Heq. by rewrite Heq in Hc.
Qed.

(** ** Handles over time *)

(** X11: no call puts another handle in the place of a cached one: a name
    cached before a call and after it has the same handle. *)
Theorem call_keeps_handles k c e x h h' :
  _database_cache c !! x = Some h →
  _database_cache (call k (c, e)).2.1 !! x = Some h' →
  h' = h.
Proof.
  intros Hc Hc'.
  destruct (step_lookup _ _ _ _ _ _ (call_step k c e) Hc') as [?|[? _]]; congruence.
Qed.

(** X12: a handle that has been evicted does not come back: if a name is
    cached, then after some calls is no longer cached, then after more
    calls is cached again, the handle it has then is another object, on
    another connection.  The starting state is one in which every object
    held was constructed before the next free identity. *)
Theorem evicted_never_returns ks1 ks2 c e x h h' :
  oids_below (next_oid e) c →
  _database_cache c !! x = Some h →
  _database_cache (calls ks1 (c, e)).1 !! x = None →
  _database_cache (calls ks2 (calls ks1 (c, e))).1 !! x = Some h' →
  db_oid h' ≠ db_oid h ∧ conn_oid (client h') ≠ conn_oid (client h).
Proof.
  intros (_ & _ & _ & Hb) Hc Hgone Hback.
  destruct (Hb x h Hc) as [Hd Hcn].
  pose proof (calls_mono ks1 (c, e)) as Hle. cbn [snd] in Hle.
  destruct (calls_lookup _ _ _ _ Hback) as [?|Hnew]; [congruence|]. lia.
Qed.

(** X13: a successful rebuild leaves as many cache entries as the listing
    has distinct names, a name listed twice counting once, and constructs
    two objects, a connection and a handle, for each distinct listed name
    that was not cached, and none otherwise. *)
Theorem rebuild_counts c e d st1 :
  databases (c, e) = (inr d, st1) →
  let r := _invalidate_database_cache (c, e) in
  size (_database_cache r.2.1) = size (list_to_set (all d) : gset string) ∧
  next_oid r.2.2 =
    (next_oid e + 2 * size ((list_to_set (all d) : gset string) ∖ dom (_database_cache c)))%nat.
Proof.
  intros Hd r. subst r. rewrite (invalidate_run_ok _ _ _ _ Hd). cbn [fst snd next_oid].
  split; [|done]. by rewrite <- size_dom, rebuild_dom.
Qed.

End Calls.

(** * The client against the simulated server *)

Section Runs.
Import Demo.

Example init_demo names sched :
  __init__ "http" "localhost" 8529 None None (Sim.start names (false :: sched))
  = (inr client0, env0 names sched).
Proof. reflexivity. Qed.

Example init_unavailable names sched :
  __init__ "http" "localhost" 8529 None None (Sim.start names (true :: sched))
  = (inl (ArangoConnectionError "localhost" 503 "Service Unavailable"),
     mkEnv (Sim.mk names sched) [version_head_request conn0] 1%nat).
Proof. reflexivity. Qed.

Example databases_demo :
  (databases (start ["_system"; "foo"] [])).1
  = inr (mkDatabaseNames ["_system"; "foo"] ["_system"; "foo"]).
Proof. reflexivity. Qed.

(** *** Errors let through by the rebuild *)

(** C1 fails as stated: under an outage of the listing, [db],
    [create_database] and [delete_database] each raise
    [ArangoDatabaseListError], the error kind of [databases]. *)
Lemma error_kinds_cex :
  (db "x" (start ["_system"] [true])).1
    = inl (ArangoDatabaseListError (mkResponse 503 "Service Unavailable" Sim.no_obj)) ∧
  (create_database "x" PyNone (start ["_system"] [false; true])).1
    = inl (ArangoDatabaseListError (mkResponse 503 "Service Unavailable" Sim.no_obj)) ∧
  (delete_database "x" (start ["_system"; "x"] [false; true])).1
    = inl (ArangoDatabaseListError (mkResponse 503 "Service Unavailable" Sim.no_obj)) ∧
  ¬ ((∀ c (e : Env Sim.t) n err st,
        db n (c, e) = (inl err, st) → err = ArangoDatabaseNotFoundError n) ∧
     (∀ c (e : Env Sim.t) n users err st,
        create_database n users (c, e) = (inl err, st) →
        ∃ res, err = ArangoDatabaseCreateError res) ∧
     (∀ c (e : Env Sim.t) n err st,
        delete_database n (c, e) = (inl err, st) →
        ∃ res, err = ArangoDatabaseDeleteError res)).
Proof.
  split; [reflexivity|]. split; [reflexivity|]. split; [reflexivity|].
  intros [Hdb _].
  destruct (db "x" (start ["_system"] [true])) as [[err|h] st] eqn:E.
  - rewrite (Hdb _ _ _ _ _ E) in E. vm_compute in E. discriminate E.
  - vm_compute in E. discriminate E.
Qed.

(** *** The body of the creation request *)

(** C2 fails as stated: with [users] supplied as the empty dictionary,
    the posted body is [{name}] and has no [users] member. *)
Lemma create_database_body_cex :
  create_data "x" (PyDict []) = {["name" := PyStr "x"]} ∧
  (trace (create_database "x" (PyDict []) (start ["_system"] [])).2.2)
    !! 1%nat = Some (mkRequest POST conn0 "/_api/database"
                       (Some {["name" := PyStr "x"]})) ∧
  ¬ (∀ c (e : Env Sim.t) n users,
       users ≠ PyNone →
       ∃ data rest,
         trace (create_database n users (c, e)).2.2 =
           trace e ++ mkRequest POST (_conn c) "/_api/database" (Some data) :: rest ∧
         is_Some (data !! "users")).
Proof.
  split; [reflexivity|]. split; [reflexivity|].
  intros H.
  destruct (H client0 (env0 ["_system"] []) "x" (PyDict [])) as (data & rest & Ht & [v Hv]);
    [done|].
  vm_compute in Ht. injection Ht as <- _. vm_compute in Hv. discriminate Hv.
Qed.

(** *** A stale hit *)

(** C3 fails as stated: in the state [stale] the listing succeeds and
    does not have ["x"], yet [db "x"] returns the cached handle, sending
    nothing. *)
Lemma db_contract_cex :
  (databases stale).1 = inr (mkDatabaseNames ["_system"] ["_system"]) ∧
  (∃ h, db "x" stale = (inr h, stale)) ∧
  ¬ (∀ c (e : Env Sim.t) n d st1,
       databases (c, e) = (inr d, st1) → n ∉ all d →
       ∃ st, db n (c, e) = (inl (ArangoDatabaseNotFoundError n), st)).
Proof.
  split; [reflexivity|]. split; [eexists; vm_compute; reflexivity|].
  intros H.
  destruct (databases stale) as [r st1] eqn:Hd.
  assert (r = inr (mkDatabaseNames ["_system"] ["_system"])) as ->
    by (apply (f_equal fst) in Hd; vm_compute in Hd; congruence).
  destruct stale as [c e] eqn:Hst.
  destruct (H c e "x" _ _ Hd) as [st Hdb].
  - cbn. rewrite list_elem_of_singleton. done.
  - rewrite <- Hst in Hdb. vm_compute in Hdb. discriminate Hdb.
Qed.

(** *** The theorems at work *)

(** Decidable side conditions on concrete names are settled by
    evaluation. *)
Local Ltac by_eval := apply (bool_decide_unpack _); vm_compute; exact I.

(** The rebuild of [drifted]: ["old"] is evicted, ["_system"] keeps its
    handle, ["new"] gets the handle built at the next free identity. *)
Lemma invalidate_reconciles_witness :
  (databases drifted).1 = inr (mkDatabaseNames ["_system"; "new"] ["_system"; "new"]) ∧
  ∃ c' e',
    _invalidate_database_cache drifted = (inr tt, (c', e')) ∧
    _database_cache c' !! "old" = None ∧
    _database_cache c' !! "_system" = Some (fresh_handle client0 2 "_system") ∧
    ∃ o, _database_cache c' !! "new" = Some (fresh_handle client0 o "new").
Proof.
  split; [reflexivity|].
  destruct (invalidate_reconciles drifted.1 drifted.2
              (mkDatabaseNames ["_system"; "new"] ["_system"; "new"])
              (databases drifted).2)
    as (c' & e' & Hrun & _ & Hgone & Hkeep & Hnew & _).
  { vm_compute. reflexivity. }
  exists c', e'. split; [exact Hrun|]. split; [|split].
  - apply Hgone. by_eval.
  - apply Hkeep; [by_eval | vm_compute; reflexivity].
  - destruct (Hnew "new") as (o & _ & Ho);
      [by_eval | vm_compute; reflexivity |].
    exists o. exact Ho.
Defined.

Lemma create_then_db_witness :
  ∃ c1 e1 h,
    create_database "x" PyNone (start ["_system"] []) = (inr tt, (c1, e1)) ∧
    _database_cache c1 !! "x" = Some h ∧
    db "x" (c1, e1) = (inr h, (c1, e1)).
Proof.
  apply (create_then_db "x" PyNone client0 (env0 ["_system"] [])
           (mkDatabaseNames ["_system"; "x"] ["_system"; "x"])
           (databases (client0,
              after_send (env0 ["_system"] []) (create_request client0 "x" PyNone))).2).
  - vm_compute. reflexivity.
  - vm_compute. reflexivity.
  - by_eval.
Defined.

Lemma delete_then_db_witness :
  (delete_database "x" (start ["_system"; "x"] [])).1 = inr tt ∧
  ∃ st, db "x" (after (delete_database "x") (start ["_system"; "x"] []))
        = (inl (ArangoDatabaseNotFoundError "x"), st).
Proof.
  split; [reflexivity|].
  refine (delete_then_db "x" client0 (env0 ["_system"; "x"] [])
           (mkDatabaseNames ["_system"] ["_system"])
           (databases (client0,
              after_send (env0 ["_system"; "x"] []) (delete_request client0 "x"))).2
           (after (delete_database "x") (start ["_system"; "x"] [])).1
           (after (delete_database "x") (start ["_system"; "x"] [])).2
           (mkDatabaseNames ["_system"] ["_system"])
           (databases (after (delete_database "x") (start ["_system"; "x"] []))).2
           _ _ _ _ _).
  - vm_compute. reflexivity.
  - vm_compute. reflexivity.
  - by_eval.
  - vm_compute. reflexivity.
  - by_eval.
Defined.

Lemma invalidate_idempotent_witness :
  ∃ e2,
    _invalidate_database_cache
      (after _invalidate_database_cache (start ["_system"; "foo"] []))
    = (inr tt, ((after _invalidate_database_cache (start ["_system"; "foo"] [])).1, e2)).
Proof.
  destruct (invalidate_idempotent client0 (env0 ["_system"; "foo"] [])
              (mkDatabaseNames ["_system"; "foo"] ["_system"; "foo"])
              (databases (start ["_system"; "foo"] [])).2
              (after _invalidate_database_cache (start ["_system"; "foo"] [])).1
              (after _invalidate_database_cache (start ["_system"; "foo"] [])).2
              (mkDatabaseNames ["_system"; "foo"] ["_system"; "foo"])
              (databases (after _invalidate_database_cache
                            (start ["_system"; "foo"] []))).2)
    as (e2 & Hrun & _).
  - vm_compute. reflexivity.
  - vm_compute. reflexivity.
  - vm_compute. reflexivity.
  - intros n. reflexivity.
  - exists e2. exact Hrun.
Defined.

(** The cache of [drifted], two entries, is well formed, and stays so
    through the rebuild that evicts one and adds another. *)
Lemma cache_wf_preserved_witness :
  cache_wf drifted.1 ∧
  cache_wf (after _invalidate_database_cache drifted).1 ∧
  cache_wf (after (db "new") drifted).1.
Proof.
  assert (cache_wf drifted.1) as Hwf.
  { apply (map_Forall_to_list (λ k h, _)). vm_compute.
    repeat constructor. }
  split; [exact Hwf|].
  destruct (cache_wf_preserved drifted.1 drifted.2 Hwf)
    as (_ & _ & Hinv & Hdb & _).
  split; [exact Hinv | exact (Hdb "new")].
Defined.

End Runs.

(** * Calls and sequences of calls against the simulated server *)

Section MoreRuns.
Import Demo Story.


(** Creating a database the server already has is refused with 409: the
    call raises and the client is untouched. *)
Lemma failure_leaves_client_witness :
  (call (CallCreateDatabase "x" PyNone) looked_up).1
    = Some (ArangoDatabaseCreateError (mkResponse 409 "Conflict" Sim.no_obj)) ∧
  (call (CallCreateDatabase "x" PyNone) looked_up).2.1 = looked_up.1.
Proof.
  split; [reflexivity|].
  refine (proj1 (failure_leaves_client (CallCreateDatabase "x" PyNone)
                   looked_up.1 looked_up.2
                   (ArangoDatabaseCreateError (mkResponse 409 "Conflict" Sim.no_obj))
                   _ _)).
  - vm_compute. reflexivity.
  - intros n. discriminate.
Defined.

Lemma db_stable_witness :
  db "foo" (after (db "foo") (start ["_system"; "foo"] []))
  = (inr (fresh_handle client0 4 "foo"), after (db "foo") (start ["_system"; "foo"] [])).
Proof.
  apply (db_stable "foo" (start ["_system"; "foo"] [])).
  vm_compute. reflexivity.
Defined.

Lemma constructed_client_invariant_witness :
  _conn (calls busy (start ["_system"; "foo"] [])).1 = conn0 ∧
  _default_database (calls busy (start ["_system"; "foo"] [])).1
    = mkDatabase 1 "_system" conn0 ∧
  cache_wf (calls busy (start ["_system"; "foo"] [])).1.
Proof.
  destruct (constructed_client_invariant "http" "localhost" 8529 None None
              (Sim.start ["_system"; "foo"] [false]) client0
              (env0 ["_system"; "foo"] []) busy (init_demo ["_system"; "foo"] []))
    as (_ & _ & _ & _ & _ & Hc & Hd & Hwf).
  split; [exact Hc|]. split; [|exact Hwf].
  rewrite Hc in Hd. exact Hd.
Defined.

Lemma connections_never_shared_witness :
  own_connections (calls busy (start ["_system"; "foo"] [])).1.
Proof.
  exact (proj1 (connections_never_shared "http" "localhost" 8529 None None
                  (Sim.start ["_system"; "foo"] [false]) client0
                  (env0 ["_system"; "foo"] []) busy (init_demo ["_system"; "foo"] []))).
Defined.

Lemma db_handle_for_name_witness :
  ∃ h st', db "bar" (calls busy (start ["_system"; "foo"] [])) = (inr h, st') ∧
           name h = "bar" ∧
           client h = mkConnection (conn_oid (client h)) "http" "localhost" 8529
                        None None (Some "bar").
Proof.
  destruct (db "bar" (calls busy (start ["_system"; "foo"] []))) as [[err|h] st'] eqn:Hdb.
  - vm_compute in Hdb. discriminate Hdb.
  - exists h, st'. split; [reflexivity|].
    exact (db_handle_for_name "http" "localhost" 8529 None None
             (Sim.start ["_system"; "foo"] [false]) client0
             (env0 ["_system"; "foo"] []) busy "bar" h st' (init_demo ["_system"; "foo"] []) Hdb).
Defined.

Lemma db_never_default_witness :
  ∃ h st', db "_system" (calls busy (start ["_system"; "foo"] [])) = (inr h, st') ∧
           db_oid h ≠ db_oid (_default_database client0) ∧
           client h ≠ client (_default_database client0).
Proof.
  destruct (db "_system" (calls busy (start ["_system"; "foo"] [])))
    as [[err|h] st'] eqn:Hdb.
  - vm_compute in Hdb. discriminate Hdb.
  - exists h, st'. split; [reflexivity|].
    destruct (db_never_default "http" "localhost" 8529 None None
                (Sim.start ["_system"; "foo"] [false]) client0
                (env0 ["_system"; "foo"] []) busy "_system" h st' (init_demo ["_system"; "foo"] []) Hdb)
      as (Hd & _ & Hc).
    split; [exact Hd | exact Hc].
Defined.

Lemma call_keeps_handles_witness :
  _database_cache (call (CallCreateDatabase "y" PyNone) looked_up).2.1 !! "x"
  = Some (fresh_handle client0 4 "x").
Proof.
  destruct (_database_cache (call (CallCreateDatabase "y" PyNone) looked_up).2.1 !! "x")
    as [h'|] eqn:Hx.
  - f_equal.
    refine (call_keeps_handles (CallCreateDatabase "y" PyNone)
              looked_up.1 looked_up.2 "x" (fresh_handle client0 4 "x") h' _ Hx).
    vm_compute. reflexivity.
  - vm_compute in Hx. discriminate Hx.
Defined.

(** ["x"] is cached, deleted, then created again: the handle cached at
    the end is not the one cached at the start. *)
Lemma evicted_never_returns_witness :
  ∃ h', _database_cache
          (calls [CallCreateDatabase "x" PyNone]
             (calls [CallDeleteDatabase "x"] looked_up)).1 !! "x" = Some h' ∧
        db_oid h' ≠ db_oid (fresh_handle client0 4 "x").
Proof.
  destruct (_database_cache
              (calls [CallCreateDatabase "x" PyNone]
                 (calls [CallDeleteDatabase "x"] looked_up)).1 !! "x")
    as [h'|] eqn:Hback.
  - exists h'. split; [reflexivity|].
    refine (proj1 (evicted_never_returns [CallDeleteDatabase "x"]
                     [CallCreateDatabase "x" PyNone] looked_up.1 looked_up.2 "x"
                     (fresh_handle client0 4 "x") h' _ _ _ Hback)).
    + unfold oids_below. split_and!; try (vm_compute; lia).
      apply (map_Forall_to_list (λ k h, _)). vm_compute.
      repeat (constructor; try lia).
    + vm_compute. reflexivity.
    + vm_compute. reflexivity.
  - vm_compute in Hback. discriminate Hback.
Defined.

(** A listing that names ["foo"] twice: two entries, two new names, four
    objects. *)
Lemma rebuild_counts_witness :
  size (_database_cache
          (after _invalidate_database_cache (start ["_system"; "foo"; "foo"] [])).1) = 2%nat ∧
  next_oid (after _invalidate_database_cache (start ["_system"; "foo"; "foo"] [])).2 = 6%nat.
Proof.
  destruct (rebuild_counts client0 (env0 ["_system"; "foo"; "foo"] [])
              (mkDatabaseNames ["_system"; "foo"; "foo"] ["_system"; "foo"; "foo"])
              (databases (start ["_system"; "foo"; "foo"] [])).2)
    as [Hsize Hnext].
  - vm_compute. reflexivity.
  - split.
    + etransitivity; [exact Hsize|]. vm_compute. reflexivity.
    + etransitivity; [exact Hnext|]. vm_compute. reflexivity.
Defined.

End MoreRuns.
